(** * MnistExperiment: the experiment manager of the MNIST VAE example

    A shallow embedding of
    [experiments/mnist_experiment/experiment_manager.py].

    Python integers are [Z], Python strings are [string], a dict whose
    iteration order matters is an association list, an exception is a
    value of [exn] carried by [result].  Tensors are nested lists of
    scalars; the scalar arithmetic of torch, the formatting of floats and
    the helpers imported from other packages are fields of the class
    [Torch], so that every statement holds for whatever they compute.
    torch runs with its default argument validation. *)

From Stdlib Require Import ZArith String Ascii List Bool Lia.
From Stdlib Require Import DecimalString DecimalPos DecimalZ.
From Stdlib Require QArith.
Import ListNotations.

Open Scope string_scope.
Open Scope Z_scope.

(** ** Python values *)

(** Exceptions the code can raise.  [ShapeError] stands for the
    [RuntimeError] torch raises on tensors whose shapes do not fit, and
    [ValueError] for the one its argument validation raises; their
    messages are torch's and are not modelled. *)
Inductive exn : Type :=
| RuntimeError (msg : string)
| ShapeError
| ValueError
| KeyError (key : string)
| StopIteration
| AssertionError
| ZeroDivisionError.

Inductive result (A : Type) : Type :=
| Ok (a : A)
| Raise (e : exn).

Arguments Ok {A} a.
Arguments Raise {A} e.

Definition rbind {A B : Type} (r : result A) (k : A -> result B) : result B :=
  match r with
  | Ok a => k a
  | Raise e => Raise e
  end.

Module Py.

(** [str(i)] for an integer. *)
Definition str (i : Z) : string := NilZero.string_of_int (Z.to_int i).

(** [str(v)] for a value that is an integer or [None]. *)
Definition str_opt (v : option Z) : string :=
  match v with
  | Some i => str i
  | None => "None"
  end.

(** [s.startswith(p)]. *)
Fixpoint startswith (s p : string) {struct p} : bool :=
  match p with
  | EmptyString => true
  | String a p' =>
      match s with
      | EmptyString => false
      | String b s' => Ascii.eqb a b && startswith s' p'
      end
  end.

(** [s.find(sub)] counted from position [i]: the lowest index at which
    [sub] occurs, or [-1]. *)
Fixpoint find_from (i : Z) (s sub : string) : Z :=
  if startswith s sub then i
  else match s with
       | EmptyString => -1
       | String _ s' => find_from (i + 1) s' sub
       end.

Definition find (s sub : string) : Z := find_from 0 s sub.

(** [s.split(sep)] for a separator of one character. *)
Fixpoint split (s : string) (sep : ascii) : list string :=
  match s with
  | EmptyString => [EmptyString]
  | String c s' =>
      if Ascii.eqb c sep then EmptyString :: split s' sep
      else match split s' sep with
           | h :: t => String c h :: t
           | [] => [String c EmptyString]
           end
  end.

(** [l[-1]] on a list of strings. *)
Definition last (l : list string) : string := List.last l EmptyString.

(** [s.endswith('/')]. *)
Fixpoint ends_with_slash (s : string) : bool :=
  match s with
  | EmptyString => false
  | String c EmptyString => Ascii.eqb c "/"
  | String _ s' => ends_with_slash s'
  end.

(** [os.path.join(a, b)] of [posixpath], for two components. *)
Definition path_join (a b : string) : string :=
  if startswith b "/" then b
  else if orb (String.eqb a "") (ends_with_slash a) then a ++ b
  else a ++ "/" ++ b.

(** [a % b] on integers: the sign follows the divisor, and a zero
    divisor raises. *)
Definition mod_ (a b : Z) : result Z :=
  if b =? 0 then Raise ZeroDivisionError else Ok (a mod b).

(** [d[k]] on a dict kept as an association list in insertion order. *)
Fixpoint getitem {V : Type} (d : list (string * V)) (k : string) : result V :=
  match d with
  | [] => Raise (KeyError k)
  | (k', v) :: d' => if String.eqb k' k then Ok v else getitem d' k
  end.

Definition keys {V : Type} (d : list (string * V)) : list string :=
  map fst d.

End Py.

(** ** Configuration *)

(** The fields of the [argparse.Namespace] that the experiment reads. *)
Record Namespace : Type := {
  batch_size : Z;
  test_batch_size : Z;
  seed : Z;
  test_log_interval : Z;
  loglik_interval : Z;
  loglik_samples : Z;
  additional_descr : string;
  dry_run : bool
}.

(** [_parse_args], from the point where [parser.parse_args()] has
    returned [args]: the assertion on the two intervals, then the
    return. *)
Definition _parse_args (args : Namespace) : result Namespace :=
  rbind (Py.mod_ (loglik_interval args) (test_log_interval args)) (fun r =>
  if r =? 0 then Ok args else Raise AssertionError).

(** [_make_run_description]. *)
Definition _make_run_description (args : Namespace) : string :=
  let s := "" in
  let s := s ++ "seed" ++ Py.str (seed args) in
  if (0 <? Z.of_nat (String.length (additional_descr args)))
  then s ++ "," ++ additional_descr args
  else s.

(** ** Tensors, the model and the world *)

(** What the code takes from torch, torchvision and [boilr.utils]:
    scalar arithmetic on floats, the Bernoulli log-probability of one
    value under one probability, the two tests of torch's argument
    validation ([0 <= p <= 1] on a probability, [x == 0 or x == 1] on a
    value), the KL divergence of two distribution objects (one row of
    latent dimensions per example), the state of the random generator,
    Python's float formats [.5g] and [.3g], and [img_grid_pad_value]. *)
Class Torch : Type := {
  scalar : Type;
  tzero : scalar;
  tadd : scalar -> scalar -> scalar;
  tsub : scalar -> scalar -> scalar;
  tneg : scalar -> scalar;
  tdiv : scalar -> scalar -> scalar;
  of_count : nat -> scalar;
  bern_log_prob : scalar -> scalar -> scalar;
  is_prob : scalar -> bool;
  is_binary : scalar -> bool;
  Dist : Type;
  kl_divergence : Dist -> Dist -> list (list scalar);
  Rng : Type;
  fmt5g : scalar -> string;
  fmt3g : scalar -> string;
  img_grid_pad_value : list (list (list (list scalar))) -> scalar
}.

Section Experiment.

Context `{Torch}.

(** An image is channels x height x width; a batch is a list of
    images. *)
Definition Img : Type := list (list (list scalar)).
Definition Batch : Type := list Img.

(** [t.sum()] of a vector and [t.mean()]. *)
Definition tsum (v : list scalar) : scalar := fold_left tadd v tzero.

Definition tmean (v : list scalar) : scalar :=
  tdiv (tsum v) (of_count (length v)).

(** [t.sum((1, 2, 3))] on one example: over width, then height, then
    channel. *)
Definition sum_chw (img : Img) : scalar :=
  tsum (map (fun ch => tsum (map tsum ch)) img).

(** [f] on every element of a list, stopping at the first error. *)
Fixpoint traverse {A C : Type} (f : A -> result C) (l : list A)
    : result (list C) :=
  match l with
  | [] => Ok []
  | a :: l' =>
      rbind (f a) (fun c =>
      rbind (traverse f l') (fun r => Ok (c :: r)))
  end.

(** The pairs an elementwise operation works on along one axis, as
    torch broadcasts it: position by position when the two sizes are
    equal, the single element against every element of the other side
    when one size is one, and no pairing otherwise.  (A tensor is a
    nested list here, so an empty axis hides the sizes of the axes
    below it.) *)
Definition pair_up {A B : Type} (u : list A) (v : list B)
    : option (list (A * B)) :=
  if (length u =? length v)%nat then Some (combine u v)
  else match u, v with
       | [a], _ => Some (map (fun b => (a, b)) v)
       | _, [b] => Some (map (fun a => (a, b)) u)
       | _, _ => None
       end.

(** An elementwise operation along one axis; sizes that cannot be
    broadcast are a shape error. *)
Definition broadcast {A B C : Type} (f : A -> B -> result C)
    (u : list A) (v : list B) : result (list C) :=
  match pair_up u v with
  | Some ps => traverse (fun p => f (fst p) (snd p)) ps
  | None => Raise ShapeError
  end.

(** The sizes along one axis can be broadcast, and so can the axes
    below, as [g] tells. *)
Definition broadcastable {A B : Type} (g : A -> B -> bool)
    (u : list A) (v : list B) : bool :=
  match pair_up u v with
  | Some ps => forallb (fun p => g (fst p) (snd p)) ps
  | None => false
  end.

Definition pointwise (f : scalar -> scalar -> scalar)
    (u v : list scalar) : result (list scalar) :=
  broadcast (fun a b => Ok (f a b)) u v.

(** Every entry of a tensor of four axes passes a test. *)
Definition all_entries (test : scalar -> bool) (t : Batch) : bool :=
  forallb (forallb (forallb (forallb test))) t.

(** [Bernoulli(mean)]: the constructor validates the probabilities. *)
Definition bernoulli (mean : Batch) : result Batch :=
  if all_entries is_prob mean then Ok mean else Raise ValueError.

(** [pxz.log_prob(x)]: the validation wants a value that can be
    broadcast against the probabilities and lies in the support, then
    the log-probability is taken entry by entry. *)
Definition log_prob (pxz x : Batch) : result Batch :=
  if negb (broadcastable
             (broadcastable (broadcastable (broadcastable (fun _ _ => true))))
             pxz x)
  then Raise ValueError
  else if negb (all_entries is_binary x) then Raise ValueError
  else broadcast (broadcast (broadcast (pointwise bern_log_prob))) pxz x.

(** The dict a model returns: keys ['mean'], ['sample'] and ['qz']. *)
Record ModelOutput : Type := {
  mo_mean : Batch;
  mo_sample : Batch;
  mo_qz : Dist
}.

(** Modelled from the spec: the model ([models/mnist_vae.py] is not part
    of the sources), as the capabilities of section 4.1 that the
    experiment uses.  Calling the model and sampling the prior draw
    random numbers; [sample_prior(n)] draws [n] samples. *)
Record Model : Type := {
  global_step : Z;
  pz : Dist;
  call : Rng -> Batch -> ModelOutput * Rng;
  sample_prior : Rng -> Z -> Batch * Rng;
  sample_prior_count :
    forall (r : Rng) (n : Z),
      0 <= n -> Z.of_nat (length (fst (sample_prior r n))) = n
}.

(** The attributes of [self] that the methods read. *)
Record Experiment : Type := {
  args : Namespace;
  model : Model;
  dataloaders_test : list (Batch * list Z)
}.

(** What a call can leave behind: forward passes, draws from the
    prior, and image files. *)
Inductive Event : Type :=
| Forward (x : Batch)
| SamplePrior (n : Z)
| SaveImage (fname : string) (imgs : Batch) (nrow : Z) (pad_value : scalar).

Record World : Type := {
  rng : Rng;
  trace : list Event
}.

(** State and exceptions. *)
Definition M (A : Type) : Type := World -> result A * World.

Definition ret {A : Type} (a : A) : M A := fun w => (Ok a, w).

Definition raise {A : Type} (e : exn) : M A := fun w => (Raise e, w).

Definition bind {A B : Type} (m : M A) (k : A -> M B) : M B :=
  fun w =>
    match m w with
    | (Ok a, w') => k a w'
    | (Raise e, w') => (Raise e, w')
    end.

Definition lift {A : Type} (r : result A) : M A := fun w => (r, w).

Definition emit (e : Event) : M unit :=
  fun w => (Ok tt, {| rng := rng w; trace := trace w ++ [e] |}).

(** [model(x)]. *)
Definition call_model (m : Model) (x : Batch) : M ModelOutput :=
  fun w =>
    let (out, r) := call m (rng w) x in
    (Ok out, {| rng := r; trace := trace w ++ [Forward x] |}).

(** [model.sample_prior(n)]. *)
Definition call_sample_prior (m : Model) (n : Z) : M Batch :=
  fun w =>
    let (s, r) := sample_prior m (rng w) n in
    (Ok s, {| rng := r; trace := trace w ++ [SamplePrior n] |}).

(** [save_image(imgs, fname, nrow=nrow, pad_value=pad)].  [make_grid]
    returns a single image as it is; otherwise it puts
    [xmaps = min(nrow, len(imgs))] images in a row and divides by
    [xmaps]: zero is a division by zero, and a negative [xmaps] asks
    torch for a tensor of negative size (an image is taken to have at
    least one pixel).  Encoding the grid and writing the file are taken
    to succeed. *)
Definition save_image (imgs : Batch) (fname : string) (nrow : Z)
    (pad : scalar) : M unit :=
  let nmaps := Z.of_nat (length imgs) in
  if nmaps =? 1 then emit (SaveImage fname imgs nrow pad)
  else
    let xmaps := Z.min nrow nmaps in
    if xmaps =? 0 then raise ZeroDivisionError
    else if xmaps <? 0 then raise ShapeError
    else emit (SaveImage fname imgs nrow pad).

(** The file names written so far, in order. *)
Definition artifacts (w : World) : list string :=
  flat_map (fun e => match e with
                     | SaveImage fname _ _ _ => [fname]
                     | _ => []
                     end) (trace w).

End Experiment.

Notation "x <- m ;; k" := (bind m (fun x => k))
  (at level 61, m at next level, right associativity).
Notation "m ;;; k" := (bind m (fun _ => k))
  (at level 61, right associativity).

(** ** The methods of [MnistExperiment] *)

Section Methods.

Context `{Torch}.

(** The dict [forward_pass] returns, one field per key. *)
Record ForwardOutput : Type := {
  out_sample : Batch;
  out_mean : Batch;
  loss : scalar;
  elbo_sep : list scalar;
  elbo : scalar;
  recons : scalar;
  kl : scalar
}.

(** [forward_pass(self, model, x)].  Moving [x] to the device leaves
    its values as they are. *)
Definition forward_pass (m : Model) (x : Batch) : M ForwardOutput :=
  out <- call_model m x ;;
  pxz <- lift (bernoulli (mo_mean out)) ;;
  lp <- lift (log_prob pxz x) ;;
  let log_likelihood := map sum_chw lp in
  let kl_ := map tsum (kl_divergence (mo_qz out) (pz m)) in
  elbo_sep_ <- lift (pointwise tsub log_likelihood kl_) ;;
  let elbo_ := tmean elbo_sep_ in
  let loss_ := tneg elbo_ in
  ret {| out_sample := mo_sample out;
         out_mean := mo_mean out;
         loss := loss_;
         elbo_sep := elbo_sep_;
         elbo := elbo_;
         recons := tneg (tmean log_likelihood);
         kl := tmean kl_ |}.

(** A summaries dict: metric names to floats, in insertion order. *)
Definition Summaries : Type := list (string * scalar).

(** [get_metrics_dict(results)]. *)
Definition get_metrics_dict (results : ForwardOutput) : Summaries :=
  [ ("loss/loss", loss results);
    ("elbo/elbo", elbo results);
    ("elbo/recons", recons results);
    ("elbo/kl", kl results) ].

(** [print_train_log(step, epoch, summaries)]: the line handed to
    [print]. *)
Definition print_train_log (step epoch : Z) (summaries : Summaries)
    : result string :=
  rbind (Py.getitem summaries "loss/loss") (fun l =>
  rbind (Py.getitem summaries "elbo/elbo") (fun e =>
  rbind (Py.getitem summaries "elbo/recons") (fun r =>
  rbind (Py.getitem summaries "elbo/kl") (fun k =>
  Ok ("       [step " ++ Py.str step ++ "]   loss: " ++ fmt5g l
      ++ "   ELBO: " ++ fmt5g e ++ "   recons: " ++ fmt3g r
      ++ "   KL: " ++ fmt3g k))))).

(** The loop of [print_test_log] over [summaries.keys()]: the first
    key [k] with [k.find('elbo_IW') > -1], together with
    [k.split('_')[-1]]; [None] when the loop ends without a [break]. *)
Fixpoint scan_keys (ks : list string) : option (string * string) :=
  match ks with
  | [] => None
  | k :: ks' =>
      if -1 <? Py.find k "elbo_IW"
      then Some (k, Py.last (Py.split k "_"))
      else scan_keys ks'
  end.

(** The part of the evaluation line that precedes the scalars. *)
Definition test_log_head (step epoch : option Z) : string :=
  let log_string := "       " in
  match epoch with
  | Some _ =>
      log_string ++ "[step " ++ Py.str_opt step ++ ", epoch "
                 ++ Py.str_opt epoch ++ "]   "
  | None => log_string
  end.

(** [print_test_log(summaries, step, epoch)]: the line handed to
    [print]. *)
Definition print_test_log (summaries : Summaries) (step epoch : option Z)
    : result string :=
  let log_string := test_log_head step epoch in
  rbind (Py.getitem summaries "elbo/elbo") (fun e =>
  rbind (Py.getitem summaries "elbo/recons") (fun r =>
  rbind (Py.getitem summaries "elbo/kl") (fun k =>
  let log_string :=
    log_string ++ "ELBO " ++ fmt5g e ++ "   recons: " ++ fmt3g r
               ++ "   KL: " ++ fmt3g k in
  match scan_keys (Py.keys summaries) with
  | Some (ll_key, iw_samples) =>
      rbind (Py.getitem summaries ll_key) (fun v =>
      Ok (log_string ++ "   marginal log-likelihood (" ++ iw_samples
                     ++ ") " ++ fmt5g v))
  | None => Ok log_string
  end))).

(** Two tensors have the same shape. *)
Fixpoint same_lengths {A B : Type} (f : A -> B -> bool)
    (u : list A) (v : list B) : bool :=
  match u, v with
  | [], [] => true
  | a :: u', b :: v' => f a b && same_lengths f u' v'
  | _, _ => false
  end.

Definition same_shape (a b : Batch) : bool :=
  same_lengths
    (same_lengths (same_lengths (same_lengths (fun _ _ => true)))) a b.

(** [torch.stack([a, b])]: both tensors must have the same shape. *)
Definition stack (a b : Batch) : result (list Batch) :=
  if same_shape a b then Ok [a; b] else Raise ShapeError.

(** [t.permute(1, 0, 2, 3, 4)]: the first two axes change places. *)
Fixpoint permute10 {A : Type} (rows : list (list A)) : list (list A) :=
  match rows with
  | [] => []
  | r :: rows' =>
      match rows' with
      | [] => map (fun a => [a]) r
      | _ :: _ => map (fun p => fst p :: snd p) (combine r (permute10 rows'))
      end
  end.

(** [t.reshape(count, C, H, W)] of a tensor whose last three axes are
    C, H and W already: the first two axes are merged, row-major, and
    the number of images must be [count] (an image is taken to have at
    least one pixel). *)
Definition reshape (t : list (list Img)) (count : Z) : result Batch :=
  let flat := concat t in
  if Z.of_nat (length flat) =? count then Ok flat else Raise ShapeError.

(** [x[:k]]. *)
Definition take {A : Type} (k : Z) (l : list A) : list A :=
  firstn (Z.to_nat k) l.

(** [save_input_and_recons(self, x, fname, n)]. *)
Definition save_input_and_recons (self : Experiment) (x : Batch)
    (fname : string) (n : Z) : M unit :=
  let n_img := n ^ 2 / 2 in
  if Z.of_nat (length x) <? n_img then
    let msg := Py.str n_img
               ++ " data points required, but given batch has size "
               ++ Py.str (Z.of_nat (length x))
               ++ ". Please use a larger batch." in
    raise (RuntimeError msg)
  else
    outputs <- forward_pass (model self) x ;;
    let x := take n_img x in
    let recons_ := take n_img (out_sample outputs) in
    imgs <- lift (stack x recons_) ;;
    let imgs := permute10 imgs in
    imgs <- lift (reshape imgs (n ^ 2)) ;;
    let pad := img_grid_pad_value imgs in
    save_image imgs fname n pad.

(** [next(iter(self.dataloaders.test))]. *)
Definition first_test_batch (self : Experiment) : M (Batch * list Z) :=
  match dataloaders_test self with
  | [] => raise StopIteration
  | b :: _ => ret b
  end.

(** [additional_testing(self, img_folder)]. *)
Definition additional_testing (self : Experiment) (img_folder : string)
    : M unit :=
  let step := global_step (model self) in
  if negb (dry_run (args self)) then
    let n := 8 in
    sample <- call_sample_prior (model self) (n ^ 2) ;;
    let fname := Py.path_join img_folder ("sample_" ++ Py.str step ++ ".png") in
    let pad := img_grid_pad_value sample in
    save_image sample fname n pad ;;;
    xy <- first_test_batch self ;;
    let fname :=
      Py.path_join img_folder ("reconstruction_" ++ Py.str step ++ ".png") in
    save_input_and_recons self (fst xy) fname n
  else ret tt.

End Methods.

(** ** Vocabulary of the statements *)

Section Vocabulary.

Context `{Torch}.






(** The images of [a] and [b] in adjacent pairs. *)
Fixpoint interleave {A : Type} (a b : list A) : list A :=
  match a, b with
  | x :: a', y :: b' => x :: y :: interleave a' b'
  | _, _ => []
  end.

(** [sub] occurs somewhere in [s]. *)
Definition occurs (sub s : string) : Prop :=
  exists a b, s = a ++ sub ++ b.

(** The evaluation line up to and including the three scalars. *)
Definition test_log_scalars (step epoch : option Z) (e r k : scalar)
    : string :=
  test_log_head step epoch ++ "ELBO " ++ fmt5g e ++ "   recons: "
    ++ fmt3g r ++ "   KL: " ++ fmt3g k.

(** The segment of the evaluation line that reports the marginal
    log-likelihood with its label. *)
Definition marginal_segment (label : string) (v : scalar) : string :=
  "   marginal log-likelihood (" ++ label ++ ") " ++ fmt5g v.

(** The message of the error raised on a batch that is too small. *)
Definition too_small_msg (required given : Z) : string :=
  Py.str required ++ " data points required, but given batch has size "
    ++ Py.str given ++ ". Please use a larger batch.".

End Vocabulary.

(** ** An instance over the integers

    It runs the definitions on small inputs: scalars are integers,
    a distribution object is the table of its KL terms, the random
    generator is a counter, and both float formats print the integer. *)

Module IntTorch.

Definition min_of (imgs : list (list (list (list Z)))) : Z :=
  match concat (concat (concat imgs)) with
  | [] => 0
  | a :: l => fold_left Z.min l a
  end.

#[export] Instance torch : Torch := {|
  scalar := Z;
  tzero := 0;
  tadd := Z.add;
  tsub := Z.sub;
  tneg := Z.opp;
  tdiv := Z.div;
  of_count := Z.of_nat;
  bern_log_prob := fun p x => - Z.abs (p - x);
  is_prob := fun p => (0 <=? p) && (p <=? 1);
  is_binary := fun x => (x =? 0) || (x =? 1);
  Dist := list (list Z);
  kl_divergence := fun q _ => q;
  Rng := nat;
  fmt5g := Py.str;
  fmt3g := Py.str;
  img_grid_pad_value := min_of
|}.

(** A one-pixel image and a batch of [k] of them, black and white in
    turn, starting with the colour [i mod 2]. *)
Definition pixel (v : Z) : Img := [[[v]]].

Fixpoint pixels (k : nat) (i : Z) : Batch :=
  match k with
  | O => []
  | S k' => pixel (i mod 2) :: pixels k' (i + 1)
  end.

(** A model that reconstructs pixel [v] as [v + 100], with one latent
    dimension per example; its prior samples are black pixels. *)
Definition shift : Img -> Img := map (map (map (fun v => v + 100))).

Definition vae : Model := {|
  global_step := 7;
  pz := [];
  call := fun r x =>
    ({| mo_mean := x; mo_sample := map shift x;
        mo_qz := map (fun _ => [1]) x |}, S r);
  sample_prior := fun r n => (repeat (pixel 0) (Z.to_nat n), S r);
  sample_prior_count := fun r n Hn =>
    eq_trans (f_equal Z.of_nat (repeat_length (pixel 0) (Z.to_nat n)))
             (Z2Nat.id n Hn)
|}.

Definition config (dry : bool) : Namespace := {|
  batch_size := 64;
  test_batch_size := 1000;
  seed := 54321;
  test_log_interval := 1000;
  loglik_interval := 50000;
  loglik_samples := 100;
  additional_descr := "";
  dry_run := dry
|}.

(** An experiment whose test loader yields one batch of [k] examples. *)
Definition experiment (dry : bool) (k : nat) : Experiment := {|
  args := config dry;
  model := vae;
  dataloaders_test := [(pixels k 0, [])]
|}.

Definition world0 : World := {| rng := O; trace := [] |}.

(** Summaries with the three scalars, then with one and with two
    importance-weighted entries. *)
Definition summaries_plain : Summaries :=
  [("loss/loss", -1); ("elbo/elbo", 1); ("elbo/recons", 2); ("elbo/kl", 3)].

Definition summaries_iw : Summaries :=
  (summaries_plain ++ [("elbo/elbo_IW_100", 5)])%list.

Definition summaries_two_iw : Summaries :=
  (summaries_plain ++ [("elbo_IW_10", 4); ("elbo_IW_100", 5)])%list.

Definition summaries_odd_key : Summaries :=
  (summaries_plain ++ [("best_elbo_IW_so_far", 6)])%list.

End IntTorch.

(** ** An instance over the rationals

    It runs the forward pass on probabilities strictly between 0 and 1.
    The log-probability of a value is replaced by the probability of
    the value minus one (its first-order approximation), and sums are
    kept in lowest terms. *)

Module RatTorch.

Import QArith.

Definition prob_minus_one (p x : Q) : Q :=
  Qred (x * p + (1 - x) * (1 - p) - 1)%Q.

#[export] Instance torch : Torch := {|
  scalar := Q;
  tzero := 0%Q;
  tadd := fun a b => Qred (a + b)%Q;
  tsub := fun a b => Qred (a - b)%Q;
  tneg := fun a => Qred (- a)%Q;
  tdiv := fun a b => Qred (a / b)%Q;
  of_count := fun k => inject_Z (Z.of_nat k);
  bern_log_prob := prob_minus_one;
  is_prob := fun p => Qle_bool 0%Q p && Qle_bool p 1%Q;
  is_binary := fun x => Qeq_bool x 0%Q || Qeq_bool x 1%Q;
  Dist := list (list Q);
  kl_divergence := fun q _ => q;
  Rng := nat;
  fmt5g := fun q => Py.str (Qnum q);
  fmt3g := fun q => Py.str (Qnum q);
  img_grid_pad_value := fun _ => 0%Q
|}.

(** An image of one row of pixels. *)
Definition row (vs : list Q) : Img := [[vs]].

(** A model whose decoder mean is one quarter everywhere, whose sample
    is its input, and whose KL table has the one entry one quarter per
    example. *)
Definition flat : Model := {|
  global_step := 7;
  pz := [];
  call := fun r x =>
    ({| mo_mean := map (map (map (map (fun _ => (1 # 4)%Q)))) x;
        mo_sample := x;
        mo_qz := map (fun _ => [(1 # 4)%Q]) x |}, S r);
  sample_prior := fun r n => (repeat (row [0%Q]) (Z.to_nat n), S r);
  sample_prior_count := fun r n Hn =>
    eq_trans (f_equal Z.of_nat (repeat_length (row [0%Q]) (Z.to_nat n)))
             (Z2Nat.id n Hn)
|}.

(** An experiment whose test loader yields the batch [x]. *)
Definition experiment (x : Batch) : Experiment := {|
  args := IntTorch.config false;
  model := flat;
  dataloaders_test := [(x, [])]
|}.

Definition world0 : World := {| rng := O; trace := [] |}.

Definition grey : Img := row [(1 # 2)%Q; 0%Q].


End RatTorch.

(** * Properties *)

(** ** Strings *)

Lemma append_assoc (a b c : string) : (a ++ b) ++ c = a ++ (b ++ c).
Proof.
  induction a as [|ch a IH]; simpl; [reflexivity|].
  now rewrite IH.
Qed.

Lemma append_nil_r (a : string) : a ++ "" = a.
Proof.
  induction a as [|ch a IH]; simpl; [reflexivity|].
  now rewrite IH.
Qed.

Lemma startswith_append (p rest : string) :
  Py.startswith (p ++ rest) p = true.
Proof.
  induction p as [|ch p IH]; simpl; [reflexivity|].
  now rewrite Ascii.eqb_refl, IH.
Qed.

Lemma startswith_split (s p : string) :
  Py.startswith s p = true -> exists rest, s = p ++ rest.
Proof.
  revert s; induction p as [|ch p IH]; intros s Hs; simpl in *.
  - now exists s.
  - destruct s as [|b s]; [discriminate|].
    apply andb_true_iff in Hs as [Hc Hp].
    apply Ascii.eqb_eq in Hc; subst b.
    destruct (IH _ Hp) as [rest ->].
    now exists rest.
Qed.

Lemma find_from_lower (i : Z) (s sub : string) :
  Py.find_from i s sub = -1 \/ i <= Py.find_from i s sub.
Proof.
  revert i; induction s as [|ch s IH]; intros i; simpl.
  - destruct (Py.startswith "" sub); [right; lia | now left].
  - destruct (Py.startswith (String ch s) sub); [right; lia|].
    destruct (IH (i + 1)) as [E|E]; [now left | right; lia].
Qed.

(** [s.find(sub) > -1] exactly when [sub] occurs somewhere in [s]. *)
Lemma find_from_occurs (i : Z) (a sub b : string) :
  0 <= i -> -1 < Py.find_from i (a ++ sub ++ b) sub.
Proof.
  revert i; induction a as [|ch a IH]; intros i Hi.
  - simpl (_ ++ _).
    replace (Py.find_from i (sub ++ b) sub) with i; [lia|].
    pose proof (startswith_append sub b) as E.
    destruct (sub ++ b); simpl; now rewrite E.
  - simpl (_ ++ _). simpl Py.find_from.
    destruct (Py.startswith _ sub); [lia|].
    apply IH; lia.
Qed.

Lemma find_occurs (a sub b : string) : -1 < Py.find (a ++ sub ++ b) sub.
Proof. apply find_from_occurs; lia. Qed.

Lemma find_from_found (i : Z) (s sub : string) :
  Py.find_from i s sub <> -1 -> 0 <= i -> exists a b, s = a ++ sub ++ b.
Proof.
  revert i; induction s as [|ch s IH]; intros i Hf Hi; simpl in Hf.
  - destruct sub as [|c sub]; simpl in Hf; [|congruence].
    now exists "", "".
  - destruct (Py.startswith (String ch s) sub) eqn:E.
    + destruct (startswith_split _ _ E) as [rest ->].
      now exists "", rest.
    + destruct (IH (i + 1) Hf ltac:(lia)) as (a & b & ->).
      now exists (String ch a), b.
Qed.

Lemma find_absent (s sub : string) :
  Py.find s sub = -1 <-> ~ exists a b, s = a ++ sub ++ b.
Proof.
  split.
  - intros E (a & b & ->).
    pose proof (find_occurs a sub b). lia.
  - intros N.
    destruct (Z.eq_dec (Py.find s sub) (-1)) as [E|E]; [exact E|].
    exfalso; apply N.
    apply (find_from_found 0 s sub E); lia.
Qed.

(** A string without the separator is one piece. *)
Lemma split_one_piece_from (i : Z) (s : string) (sep : ascii) :
  0 <= i -> Py.find_from i s (String sep "") = -1 -> Py.split s sep = [s].
Proof.
  revert i; induction s as [|ch s IH]; intros i Hi Hf; simpl in *;
    [reflexivity|].
  rewrite andb_true_r in Hf.
  rewrite Ascii.eqb_sym.
  destruct (Ascii.eqb sep ch); [lia|].
  rewrite (IH (i + 1)); [reflexivity | lia | exact Hf].
Qed.

Lemma split_one_piece (s : string) (sep : ascii) :
  Py.find s (String sep "") = -1 -> Py.split s sep = [s].
Proof. apply split_one_piece_from; lia. Qed.

(** The pieces of [p ++ sep ++ s] end with the pieces of [s]. *)
Lemma split_append (p s : string) (sep : ascii) :
  exists front, front <> [] /\
    Py.split (p ++ String sep s) sep = (front ++ Py.split s sep)%list.
Proof.
  induction p as [|ch p (front & Hne & IH)]; simpl.
  - rewrite Ascii.eqb_refl. exists [""]. split; [discriminate | reflexivity].
  - destruct (Ascii.eqb ch sep).
    + exists ("" :: front). rewrite IH. split; [discriminate | reflexivity].
    + rewrite IH. destruct front as [|h t]; [congruence|].
      exists (String ch h :: t). split; [discriminate | reflexivity].
Qed.

Lemma last_app_nonempty (front l : list string) :
  l <> [] -> Py.last (front ++ l)%list = Py.last l.
Proof.
  intros Hl. induction front as [|a front IH]; [reflexivity|].
  unfold Py.last in *. simpl.
  destruct (front ++ l)%list eqn:E; [|exact IH].
  destruct front; simpl in E; congruence.
Qed.

(** [k.split('_')[-1]] is the text after the last underscore. *)
Lemma last_piece (p suffix : string) (sep : ascii) :
  Py.find suffix (String sep "") = -1 ->
  Py.last (Py.split (p ++ String sep suffix) sep) = suffix.
Proof.
  intros Hs.
  destruct (split_append p suffix sep) as (front & _ & ->).
  rewrite (split_one_piece _ _ Hs).
  rewrite last_app_nonempty; [reflexivity | discriminate].
Qed.

(** The decimal text of an integer has no underscore. *)
Lemma uint_no_underscore (d : Decimal.uint) (i : Z) :
  0 <= i -> Py.find_from i (NilEmpty.string_of_uint d) "_" = -1.
Proof.
  revert i; induction d; intros i Hi; simpl;
    try reflexivity; apply IHd; lia.
Qed.

Lemma str_no_underscore (z : Z) : Py.find (Py.str z) "_" = -1.
Proof.
  unfold Py.find, Py.str.
  destruct (Z.to_int z) as [d|d]; simpl.
  - destruct d; simpl; try reflexivity; apply uint_no_underscore; lia.
  - destruct d; simpl; try reflexivity; apply uint_no_underscore; lia.
Qed.

(** ** Configuration *)

(** C7.  The run description is ['seed<seed>'] when the free-text tag is
    empty and ['seed<seed>,<tag>'] when it is not; for seed 54321 it is
    ["seed54321"] with no tag and ["seed54321,exp1"] with the tag
    ["exp1"], whatever the other settings are. *)
Theorem make_run_description_spec :
  (forall args : Namespace,
      _make_run_description args =
        if String.eqb (additional_descr args) ""
        then "seed" ++ Py.str (seed args)
        else "seed" ++ Py.str (seed args) ++ "," ++ additional_descr args)
  /\ (forall bs tbs tli lli ls dry,
         _make_run_description
           {| batch_size := bs; test_batch_size := tbs; seed := 54321;
              test_log_interval := tli; loglik_interval := lli;
              loglik_samples := ls; additional_descr := "";
              dry_run := dry |} = "seed54321")
  /\ (forall bs tbs tli lli ls dry,
         _make_run_description
           {| batch_size := bs; test_batch_size := tbs; seed := 54321;
              test_log_interval := tli; loglik_interval := lli;
              loglik_samples := ls; additional_descr := "exp1";
              dry_run := dry |} = "seed54321,exp1").
Proof.
  split; [|split; reflexivity].
  intros args. unfold _make_run_description.
  destruct (additional_descr args) as [|c tag]; [reflexivity|].
  cbn [String.length String.eqb].
  replace (0 <? Z.of_nat (S (String.length tag))) with true
    by (symmetry; apply Z.ltb_lt; lia).
  reflexivity.
Qed.

(** C2, as the code has it.  A configuration whose evaluation interval
    is not a multiple of the test-logging interval never gets through;
    one that is a multiple gets through when the test-logging interval
    is not zero; and a zero test-logging interval stops the run on the
    division, whatever the evaluation interval. *)
Theorem parse_args_spec (args : Namespace) :
  (~ (test_log_interval args | loglik_interval args) ->
     exists e, _parse_args args = Raise e)
  /\ (test_log_interval args <> 0 ->
      (test_log_interval args | loglik_interval args) ->
      _parse_args args = Ok args)
  /\ (test_log_interval args = 0 ->
      _parse_args args = Raise ZeroDivisionError).
Proof.
  unfold _parse_args, Py.mod_.
  destruct (Z.eqb_spec (test_log_interval args) 0) as [E0|N0]; cbn [rbind].
  - repeat split; intros; try congruence. eauto.
  - destruct (Z.eqb_spec (loglik_interval args mod test_log_interval args) 0)
      as [Em|Nm].
    + repeat split; intros; try congruence.
      exfalso. apply H. now apply Z.mod_divide.
    + repeat split; intros; try congruence; eauto.
      exfalso. apply Nm. now apply Z.mod_divide.
Qed.

Lemma parse_args_spec_witness :
  _parse_args (IntTorch.config false) = Ok (IntTorch.config false)
  /\ _parse_args
       {| batch_size := 64; test_batch_size := 1000; seed := 54321;
          test_log_interval := 1000; loglik_interval := 1500;
          loglik_samples := 100; additional_descr := ""; dry_run := false |}
     = Raise AssertionError.
Proof.
  split.
  - apply (proj1 (proj2 (parse_args_spec (IntTorch.config false)))).
    + simpl; lia.
    + exists 50; reflexivity.
  - reflexivity.
Defined.

(** C2 as stated fails where both intervals are zero: zero is a multiple
    of zero, yet the run stops on the division. *)
Lemma parse_args_zero_intervals :
  ~ (forall args : Namespace,
        (test_log_interval args | loglik_interval args) ->
        _parse_args args = Ok args).
Proof.
  intros claim.
  specialize (claim
    {| batch_size := 64; test_batch_size := 1000; seed := 54321;
       test_log_interval := 0; loglik_interval := 0;
       loglik_samples := 100; additional_descr := ""; dry_run := false |}).
  cbn in claim.
  assert (D : (0 | 0)) by (exists 0; reflexivity).
  specialize (claim D). discriminate claim.
Qed.

(** ** Tensors *)

Section TensorFacts.

Context `{Torch}.

Lemma same_lengths_length {A B : Type} (g : A -> B -> bool)
    (u : list A) (v : list B) :
  same_lengths g u v = true -> length u = length v.
Proof.
  revert v; induction u as [|a u IH]; intros [|b v] E; simpl in *;
    try discriminate; [reflexivity|].
  apply andb_true_iff in E as [_ E]. now rewrite (IH v E).
Qed.




Lemma same_lengths_trans {A B C : Type} (g1 : A -> B -> bool)
    (g2 : B -> C -> bool) (g3 : A -> C -> bool)
    (u : list A) (v : list B) (t : list C) :
  (forall a b c, g1 a b = true -> g2 b c = true -> g3 a c = true) ->
  same_lengths g1 u v = true -> same_lengths g2 v t = true ->
  same_lengths g3 u t = true.
Proof.
  intros Hg. revert v t; induction u as [|a u IH];
    intros [|b v] [|c t] E1 E2; simpl in *; try discriminate;
    [reflexivity|].
  apply andb_true_iff in E1 as [E1 E1'].
  apply andb_true_iff in E2 as [E2 E2'].
  now rewrite (Hg _ _ _ E1 E2), (IH _ _ E1' E2').
Qed.


Lemma same_shape_trans (a b c : Batch) :
  same_shape a b = true -> same_shape b c = true -> same_shape a c = true.
Proof.
  unfold same_shape.
  apply same_lengths_trans. intros u v t.
  apply same_lengths_trans. intros u' v' t'.
  apply same_lengths_trans. intros u'' v'' t''.
  apply same_lengths_trans. reflexivity.
Qed.

















End TensorFacts.

(** ** The forward pass *)

Section ForwardPass.

Context `{Torch}.



End ForwardPass.

(** ** Input and reconstruction grid *)

Section Grid.

Context `{Torch}.

Lemma artifacts_app (w : World) (r : Rng) (es : list Event) :
  artifacts {| rng := r; trace := trace w ++ es |}
  = (artifacts w
     ++ flat_map (fun e => match e with
                           | SaveImage fname _ _ _ => [fname]
                           | _ => []
                           end) es)%list.
Proof. unfold artifacts. cbn [trace]. apply flat_map_app. Qed.

Lemma permute10_pairs {A : Type} (a b : list A) :
  concat (permute10 [a; b]) = interleave a b.
Proof.
  cbn [permute10].
  revert b; induction a as [|u a IH]; intros [|v b]; try reflexivity.
  cbn. now rewrite IH.
Qed.

Lemma interleave_length {A : Type} (a b : list A) :
  length a = length b -> length (interleave a b) = (2 * length a)%nat.
Proof.
  revert b; induction a as [|u a IH]; intros [|v b] E; simpl in *;
    try discriminate; [reflexivity|].
  rewrite (IH b); [lia | now injection E].
Qed.



(** A batch that is too small stops the call before anything else
    happens. *)
Lemma save_too_small (self : Experiment) (x : Batch) (fname : string)
    (n : Z) (w : World) :
  Z.of_nat (length x) < n ^ 2 / 2 ->
  save_input_and_recons self x fname n w =
    (Raise (RuntimeError (too_small_msg (n ^ 2 / 2) (Z.of_nat (length x)))),
     w).
Proof.
  intros Hlt. unfold save_input_and_recons.
  apply Z.ltb_lt in Hlt. now rewrite Hlt.
Qed.

(** A grid that is not empty, with a positive number of images in a
    row, is written. *)
Lemma save_image_ok (imgs : Batch) (fname : string) (nrow : Z)
    (pad : scalar) (w : World) :
  0 < nrow -> 0 < Z.of_nat (length imgs) ->
  save_image imgs fname nrow pad w =
    (Ok tt,
     {| rng := rng w;
        trace := trace w ++ [SaveImage fname imgs nrow pad] |}).
Proof.
  intros Hrow Himgs. unfold save_image.
  destruct (Z.of_nat (length imgs) =? 1); [reflexivity|].
  destruct (Z.eqb_spec (Z.min nrow (Z.of_nat (length imgs))) 0); [lia|].
  destruct (Z.ltb_spec (Z.min nrow (Z.of_nat (length imgs))) 0); [lia|].
  reflexivity.
Qed.

(** Whatever [save_image] does, it writes the file exactly when it
    returns. *)
Lemma save_image_cases (imgs : Batch) (fname : string) (nrow : Z)
    (pad : scalar) (w : World) :
  (save_image imgs fname nrow pad w =
     (Ok tt,
      {| rng := rng w;
         trace := trace w ++ [SaveImage fname imgs nrow pad] |})
   /\ (Z.of_nat (length imgs) = 1
       \/ 0 < Z.min nrow (Z.of_nat (length imgs))))
  \/ (exists e, save_image imgs fname nrow pad w = (Raise e, w)).
Proof.
  unfold save_image.
  destruct (Z.eqb_spec (Z.of_nat (length imgs)) 1) as [E1|N1];
    [left; split; [reflexivity | now left]|].
  destruct (Z.eqb_spec (Z.min nrow (Z.of_nat (length imgs))) 0) as [E0|N0];
    [right; eexists; reflexivity|].
  destruct (Z.ltb_spec (Z.min nrow (Z.of_nat (length imgs))) 0) as [Hn|Hp];
    [right; eexists; reflexivity|].
  left. split; [reflexivity | right; lia].
Qed.


(** The ways a forward pass can end: the model has been called once,
    and a result, if there is one, carries the sample of the model. *)
Lemma forward_pass_cases (m : Model) (x : Batch) (w : World) :
  let out := fst (call m (rng w) x) in
  let w1 := {| rng := snd (call m (rng w) x);
               trace := trace w ++ [Forward x] |} in
  (exists e, forward_pass m x w = (Raise e, w1))
  \/ (exists res, forward_pass m x w = (Ok res, w1)
                  /\ out_sample res = mo_sample out).
Proof.
  intros out w1. subst out w1.
  unfold forward_pass, bind, call_model, lift, ret.
  destruct (call m (rng w) x) as [out r]; cbn [fst snd].
  destruct (bernoulli (mo_mean out)) as [pxz|e]; [|left; eauto].
  destruct (log_prob pxz x) as [lp|e]; [|left; eauto].
  destruct (pointwise tsub _ _) as [es|e]; [|left; eauto].
  right. eexists. split; reflexivity.
Qed.

(** The ways [save_input_and_recons] can end. *)
Lemma save_cases (self : Experiment) (x : Batch) (fname : string) (n : Z)
    (w : World) :
  exists r w',
    save_input_and_recons self x fname n w = (r, w')
    /\ ((r = Ok tt
         /\ artifacts w' = (artifacts w ++ [fname])%list
         /\ Z.even n = true
         /\ 0 < n
         /\ n ^ 2 / 2 <= Z.of_nat (length x))
        \/ (exists e, r = Raise e /\ artifacts w' = artifacts w)).
Proof.
  unfold save_input_and_recons.
  destruct (Z.ltb_spec (Z.of_nat (length x)) (n ^ 2 / 2)) as [Hlt|Hge].
  { eexists _, _. split; [reflexivity|]. right. eauto. }
  unfold bind at 1.
  assert (Hfw : forall r,
             artifacts {| rng := r; trace := trace w ++ [Forward x] |}
             = artifacts w).
  { intros r. rewrite artifacts_app. cbn [flat_map]. apply app_nil_r. }
  destruct (forward_pass_cases (model self) x w)
    as [(e & E)|(res & E & Hsample)]; rewrite E.
  { eexists _, _. split; [reflexivity|]. right. eauto. }
  unfold bind at 1. unfold lift, stack.
  destruct (same_shape _ _) eqn:Hst.
  2:{ eexists _, _. split; [reflexivity|]. right. eauto. }
  unfold bind at 1. unfold lift, reshape, Batch. rewrite permute10_pairs.
  set (grid := interleave _ _).
  destruct (Z.eqb_spec (Z.of_nat (length grid)) (n ^ 2)) as [Hlen|Hlen].
  2:{ eexists _, _. split; [reflexivity|]. right. eauto. }
  assert (Heven : Z.even n = true).
  { unfold grid in Hlen. rewrite interleave_length in Hlen
      by now apply (same_lengths_length _ _ _ Hst).
    rewrite <- (Z.even_pow n 2) by lia.
    rewrite <- Hlen, Nat2Z.inj_mul. apply Z.even_even. }
  destruct (save_image_cases grid fname n (img_grid_pad_value grid)
              {| rng := snd (call (model self) (rng w) x);
                 trace := trace w ++ [Forward x] |})
    as [[Hsave Hwhy]|(e & Hsave)]; rewrite Hsave.
  - eexists _, _. split; [reflexivity|]. left. cbn [rng trace].
    repeat split; try assumption.
    + rewrite <- app_assoc. rewrite artifacts_app. reflexivity.
    + destruct Hwhy as [E1|Hmin]; [|lia].
      exfalso. rewrite <- (Z.even_pow n 2) in Heven by lia.
      rewrite <- Hlen, E1 in Heven. discriminate.
  - eexists _, _. split; [reflexivity|]. right. eauto.
Qed.

End Grid.

Section Visualization.

Context `{Torch}.

(** C3.  A batch of fewer than [n ^ 2 / 2] examples (the quotient of
    the code, rounded down) makes [save_input_and_recons] raise a
    [RuntimeError] whose message gives the required count and the size
    of the batch, and the world is left as it was: no forward pass and
    no image file.  For [n = 8] and 31 examples the message names 32
    and 31. *)
Theorem save_input_and_recons_small_batch :
  (forall (self : Experiment) (x : Batch) (fname : string) (n : Z)
          (w : World),
      Z.of_nat (length x) < n ^ 2 / 2 ->
      save_input_and_recons self x fname n w =
        (Raise (RuntimeError
                  (Py.str (n ^ 2 / 2)
                   ++ " data points required, but given batch has size "
                   ++ Py.str (Z.of_nat (length x))
                   ++ ". Please use a larger batch.")),
         w))
  /\ (forall (self : Experiment) (x : Batch) (fname : string) (w : World),
         length x = 31%nat ->
         save_input_and_recons self x fname 8 w =
           (Raise (RuntimeError
                     "32 data points required, but given batch has size 31. Please use a larger batch."),
            w)).
Proof.
  split.
  - intros self x fname n w Hlt. now apply save_too_small.
  - intros self x fname w Hlen.
    rewrite save_too_small; rewrite Hlen; [reflexivity|].
    vm_compute. reflexivity.
Qed.



End Visualization.

(** ** Additional testing *)

Section Testing.

Context `{Torch}.

(** C9.  With the dry-run flag set, [additional_testing] returns
    without touching the world: no draw from the prior, no forward
    pass, no file. *)
Theorem additional_testing_dry_run (self : Experiment)
    (img_folder : string) (w : World) :
  dry_run (args self) = true ->
  additional_testing self img_folder w = (Ok tt, w).
Proof.
  intros Hdry. unfold additional_testing. now rewrite Hdry.
Qed.

(** Without dry-run the call draws 64 samples and writes them, then
    asks the test loader for its first batch. *)
Lemma additional_testing_sampled (self : Experiment) (img_folder : string)
    (w : World) :
  let step := Py.str (global_step (model self)) in
  let sample_png := Py.path_join img_folder ("sample_" ++ step ++ ".png") in
  let recons_png :=
    Py.path_join img_folder ("reconstruction_" ++ step ++ ".png") in
  let s := fst (sample_prior (model self) (rng w) 64) in
  let r1 := snd (sample_prior (model self) (rng w) 64) in
  dry_run (args self) = false ->
  additional_testing self img_folder w =
    (xy <- first_test_batch self ;;
     save_input_and_recons self (fst xy) recons_png 8)
      {| rng := r1;
         trace := trace w ++ [SamplePrior 64;
                              SaveImage sample_png s 8
                                (img_grid_pad_value s)] |}.
Proof.
  intros step sample_png recons_png s r1 Hdry.
  unfold additional_testing. rewrite Hdry. cbn [negb].
  unfold bind at 1. unfold call_sample_prior.
  change (8 ^ 2) with 64.
  pose proof (sample_prior_count (model self) (rng w) 64 ltac:(lia))
    as Hcount.
  subst s r1.
  destruct (sample_prior (model self) (rng w) 64) as [s r1].
  cbn [fst snd] in *.
  unfold bind at 1.
  rewrite save_image_ok; [|lia|lia].
  cbn [rng trace]. fold step. fold sample_png. fold recons_png.
  now rewrite <- app_assoc.
Qed.

(** Without dry-run the call draws 64 samples, writes them, and hands
    the first test batch to [save_input_and_recons]. *)
Lemma additional_testing_steps (self : Experiment) (img_folder : string)
    (w : World) (x : Batch) (y : list Z) (rest : list (Batch * list Z)) :
  let step := Py.str (global_step (model self)) in
  let sample_png := Py.path_join img_folder ("sample_" ++ step ++ ".png") in
  let recons_png :=
    Py.path_join img_folder ("reconstruction_" ++ step ++ ".png") in
  let s := fst (sample_prior (model self) (rng w) 64) in
  let r1 := snd (sample_prior (model self) (rng w) 64) in
  dry_run (args self) = false ->
  dataloaders_test self = (x, y) :: rest ->
  additional_testing self img_folder w =
    save_input_and_recons self x recons_png 8
      {| rng := r1;
         trace := trace w ++ [SamplePrior 64;
                              SaveImage sample_png s 8
                                (img_grid_pad_value s)] |}.
Proof.
  intros step sample_png recons_png s r1 Hdry Hloader.
  rewrite (additional_testing_sampled self img_folder w Hdry).
  unfold bind, first_test_batch. rewrite Hloader. reflexivity.
Qed.

(** Without dry-run and with an empty test loader, the call stops at
    [next] after the samples were drawn and saved. *)
Lemma additional_testing_no_batch (self : Experiment) (img_folder : string)
    (w : World) :
  let step := Py.str (global_step (model self)) in
  let sample_png := Py.path_join img_folder ("sample_" ++ step ++ ".png") in
  let s := fst (sample_prior (model self) (rng w) 64) in
  let r1 := snd (sample_prior (model self) (rng w) 64) in
  dry_run (args self) = false ->
  dataloaders_test self = [] ->
  additional_testing self img_folder w =
    (Raise StopIteration,
     {| rng := r1;
        trace := trace w ++ [SamplePrior 64;
                             SaveImage sample_png s 8
                               (img_grid_pad_value s)] |}).
Proof.
  intros step sample_png s r1 Hdry Hloader.
  rewrite (additional_testing_sampled self img_folder w Hdry).
  unfold bind, first_test_batch. rewrite Hloader. reflexivity.
Qed.

(** Without dry-run the sample file is written first, and the
    reconstruction file after it exactly when the call returns. *)
Lemma additional_testing_cases (self : Experiment) (img_folder : string)
    (w : World) :
  let step := Py.str (global_step (model self)) in
  let sample_png := Py.path_join img_folder ("sample_" ++ step ++ ".png") in
  let recons_png :=
    Py.path_join img_folder ("reconstruction_" ++ step ++ ".png") in
  dry_run (args self) = false ->
  exists r w',
    additional_testing self img_folder w = (r, w')
    /\ ((r = Ok tt
         /\ artifacts w' = (artifacts w ++ [sample_png; recons_png])%list)
        \/ (exists e,
               r = Raise e
               /\ artifacts w' = (artifacts w ++ [sample_png])%list)).
Proof.
  intros step sample_png recons_png Hdry.
  destruct (dataloaders_test self) as [|[x y] rest] eqn:Hloader.
  - rewrite (additional_testing_no_batch self img_folder w Hdry Hloader).
    eexists _, _. split; [reflexivity|]. right.
    eexists. split; [reflexivity|].
    rewrite artifacts_app. reflexivity.
  - rewrite (additional_testing_steps self img_folder w x y rest
               Hdry Hloader).
    fold step sample_png recons_png.
    set (w1 := {| rng := _; trace := _ |}).
    assert (Hw1 : artifacts w1 = (artifacts w ++ [sample_png])%list).
    { unfold w1. rewrite artifacts_app. reflexivity. }
    destruct (save_cases self x recons_png 8 w1)
      as (r & w' & -> & [(-> & Hf & _)|(e & -> & Hf)]);
      eexists _, _; (split; [reflexivity|]).
    + left. split; [reflexivity|].
      rewrite Hf, Hw1, <- app_assoc. reflexivity.
    + right. eexists. split; [reflexivity|]. now rewrite Hf.
Qed.


End Testing.

(** ** The evaluation log line *)

Section Logging.

Context `{Torch}.

Lemma find_occurs_iff (s sub : string) :
  (-1 <? Py.find s sub) = true <-> occurs sub s.
Proof.
  split.
  - intros E. apply Z.ltb_lt in E. unfold Py.find in E.
    apply (find_from_found 0 s sub); lia.
  - intros (a & b & ->). apply Z.ltb_lt, find_occurs.
Qed.

Lemma find_no_occurs (s sub : string) :
  ~ occurs sub s -> (-1 <? Py.find s sub) = false.
Proof.
  intros N. destruct (-1 <? Py.find s sub) eqn:E; [|reflexivity].
  now apply find_occurs_iff in E.
Qed.

Lemma getitem_later (pre post : Summaries) (key : string) (v : scalar) :
  Forall (fun k' => k' <> key) (Py.keys pre) ->
  Py.getitem (pre ++ (key, v) :: post) key = Ok v.
Proof.
  induction pre as [|[k' v'] pre IH]; intros Hne; simpl.
  - now rewrite String.eqb_refl.
  - inversion Hne as [|? ? Hk Hrest]; subst.
    apply String.eqb_neq in Hk. rewrite Hk. now apply IH.
Qed.

Lemma scan_keys_first (pre post : list string) (key : string) :
  Forall (fun k' => ~ occurs "elbo_IW" k') pre ->
  occurs "elbo_IW" key ->
  scan_keys (pre ++ key :: post)
  = Some (key, Py.last (Py.split key "_")).
Proof.
  intros Hpre Hkey.
  induction pre as [|k' pre IH]; simpl.
  - apply find_occurs_iff in Hkey. now rewrite Hkey.
  - inversion Hpre as [|? ? Hk Hrest]; subst.
    rewrite (find_no_occurs _ _ Hk). now apply IH.
Qed.

Lemma scan_keys_none (ks : list string) :
  Forall (fun k' => ~ occurs "elbo_IW" k') ks -> scan_keys ks = None.
Proof.
  induction 1 as [|k' ks Hk _ IH]; simpl; [reflexivity|].
  now rewrite (find_no_occurs _ _ Hk).
Qed.

(** The line printed when the scan stops at [key], the first key in
    which ['elbo_IW'] occurs. *)
Lemma print_test_log_found (pre post : Summaries) (key : string)
    (v e r k : scalar) (step epoch : option Z) :
  let s := (pre ++ (key, v) :: post)%list in
  Py.getitem s "elbo/elbo" = Ok e ->
  Py.getitem s "elbo/recons" = Ok r ->
  Py.getitem s "elbo/kl" = Ok k ->
  Forall (fun k' => ~ occurs "elbo_IW" k') (Py.keys pre) ->
  occurs "elbo_IW" key ->
  print_test_log s step epoch
  = Ok (test_log_scalars step epoch e r k
        ++ marginal_segment (Py.last (Py.split key "_")) v).
Proof.
  intros s He Hr Hk Hpre Hkey.
  unfold print_test_log. rewrite He, Hr, Hk. cbn [rbind].
  unfold s, Py.keys. rewrite map_app. cbn [map fst].
  rewrite (scan_keys_first _ _ _ Hpre Hkey).
  rewrite getitem_later; [reflexivity|].
  eapply Forall_impl; [|exact Hpre].
  intros k' Hno ->. now apply Hno.
Qed.

(** The line printed when ['elbo_IW'] occurs in no key. *)
Lemma print_test_log_plain (s : Summaries) (e r k : scalar)
    (step epoch : option Z) :
  Py.getitem s "elbo/elbo" = Ok e ->
  Py.getitem s "elbo/recons" = Ok r ->
  Py.getitem s "elbo/kl" = Ok k ->
  Forall (fun k' => ~ occurs "elbo_IW" k') (Py.keys s) ->
  print_test_log s step epoch = Ok (test_log_scalars step epoch e r k).
Proof.
  intros He Hr Hk Hno.
  unfold print_test_log. rewrite He, Hr, Hk. cbn [rbind].
  now rewrite (scan_keys_none _ Hno).
Qed.

(** C5, as the code has it.  On summaries that hold the three scalars:
    when the first key in which ['elbo_IW'] occurs is an
    importance-weighted key for [K] samples, the line is the three
    scalars followed by the marginal log-likelihood of that key
    labelled with [K]; when ['elbo_IW'] occurs in no key, the line is
    the three scalars and nothing more. *)
Theorem print_test_log_marginal (s : Summaries) (e r k : scalar)
    (step epoch : option Z) :
  Py.getitem s "elbo/elbo" = Ok e ->
  Py.getitem s "elbo/recons" = Ok r ->
  Py.getitem s "elbo/kl" = Ok k ->
  (forall (pre post : Summaries) (prefix : string) (K : Z) (v : scalar),
      s = (pre ++ ((prefix ++ "elbo_IW_" ++ Py.str K)%string, v) :: post)%list ->
      Forall (fun k' => ~ occurs "elbo_IW" k') (Py.keys pre) ->
      print_test_log s step epoch
      = Ok (test_log_scalars step epoch e r k
            ++ "   marginal log-likelihood (" ++ Py.str K ++ ") "
            ++ fmt5g v))
  /\ (Forall (fun k' => ~ occurs "elbo_IW" k') (Py.keys s) ->
      print_test_log s step epoch = Ok (test_log_scalars step epoch e r k)).
Proof.
  intros He Hr Hk. split.
  - intros pre post prefix K v -> Hpre.
    rewrite (print_test_log_found pre post _ v e r k step epoch
               He Hr Hk Hpre).
    + replace (prefix ++ "elbo_IW_" ++ Py.str K)
        with ((prefix ++ "elbo_IW") ++ String "_" (Py.str K))
        by (now rewrite append_assoc).
      rewrite last_piece; [reflexivity | apply str_no_underscore].
    + exists prefix, ("_" ++ Py.str K). reflexivity.
  - now apply print_test_log_plain.
Qed.

(** C6.  [print_test_log] scans the keys in iteration order and stops
    at the first key in which the substring ['elbo_IW'] occurs,
    wherever in the key and whatever surrounds it; the label it prints
    is the text after the last underscore of that key, and the value
    it prints is the entry of that key. *)
Theorem print_test_log_scan (pre post : Summaries)
    (key front suffix : string) (v e r k : scalar)
    (step epoch : option Z) :
  let s := (pre ++ (key, v) :: post)%list in
  Py.getitem s "elbo/elbo" = Ok e ->
  Py.getitem s "elbo/recons" = Ok r ->
  Py.getitem s "elbo/kl" = Ok k ->
  Forall (fun k' => ~ occurs "elbo_IW" k') (Py.keys pre) ->
  occurs "elbo_IW" key ->
  key = front ++ "_" ++ suffix ->
  ~ occurs "_" suffix ->
  scan_keys (Py.keys s) = Some (key, suffix)
  /\ print_test_log s step epoch
     = Ok (test_log_scalars step epoch e r k
           ++ "   marginal log-likelihood (" ++ suffix ++ ") " ++ fmt5g v).
Proof.
  intros s He Hr Hk Hpre Hkey Hsplit Hsuffix. subst s.
  assert (Hlast : Py.last (Py.split key "_") = suffix).
  { rewrite Hsplit. apply last_piece. now apply find_absent. }
  split.
  - unfold Py.keys. rewrite map_app. cbn [map fst].
    now rewrite (scan_keys_first _ _ _ Hpre Hkey), Hlast.
  - rewrite (print_test_log_found pre post key v e r k step epoch
               He Hr Hk Hpre Hkey).
    now rewrite Hlast.
Qed.

End Logging.

(** ** The statements on concrete inputs *)

Lemma save_input_and_recons_small_batch_witness :
  save_input_and_recons (IntTorch.experiment false 31) (IntTorch.pixels 31 0)
    "reconstruction_7.png" 8 IntTorch.world0
  = (Raise (RuntimeError
              "32 data points required, but given batch has size 31. Please use a larger batch."),
     IntTorch.world0).
Proof.
  apply (proj1 save_input_and_recons_small_batch
           (IntTorch.experiment false 31) (IntTorch.pixels 31 0)
           "reconstruction_7.png" 8 IntTorch.world0).
  vm_compute. reflexivity.
Defined.



Lemma additional_testing_dry_run_witness :
  additional_testing (IntTorch.experiment true 0) "out" IntTorch.world0
  = (Ok tt, IntTorch.world0).
Proof.
  apply (additional_testing_dry_run (IntTorch.experiment true 0)).
  reflexivity.
Defined.


Lemma print_test_log_marginal_witness :
  print_test_log IntTorch.summaries_iw None None
  = Ok "       ELBO 1   recons: 2   KL: 3   marginal log-likelihood (100) 5".
Proof.
  apply (proj1 (print_test_log_marginal IntTorch.summaries_iw 1 2 3
                  None None eq_refl eq_refl eq_refl)
           IntTorch.summaries_plain [] "elbo/" 100 5).
  - reflexivity.
  - repeat constructor; apply find_absent; reflexivity.
Defined.

Lemma print_test_log_scan_witness :
  scan_keys (Py.keys IntTorch.summaries_odd_key)
  = Some ("best_elbo_IW_so_far", "far")
  /\ print_test_log IntTorch.summaries_odd_key None None
     = Ok "       ELBO 1   recons: 2   KL: 3   marginal log-likelihood (far) 6".
Proof.
  apply (print_test_log_scan IntTorch.summaries_plain []
           "best_elbo_IW_so_far" "best_elbo_IW_so" "far" 6 1 2 3 None None).
  - reflexivity.
  - reflexivity.
  - reflexivity.
  - repeat constructor; apply find_absent; reflexivity.
  - exists "best_", "_so_far". reflexivity.
  - reflexivity.
  - apply find_absent. reflexivity.
Defined.

(** C5 as stated fails on summaries with two importance-weighted keys:
    the mapping holds a key for 100 samples, and the line reports the
    entry for 10 samples that comes first; 100 is nowhere in it. *)
Lemma print_test_log_two_iw_keys :
  In ("elbo_IW_100", 5) IntTorch.summaries_two_iw
  /\ "elbo_IW_100" = "elbo_IW_" ++ Py.str 100
  /\ print_test_log IntTorch.summaries_two_iw None None
     = Ok "       ELBO 1   recons: 2   KL: 3   marginal log-likelihood (10) 4"
  /\ Py.find
       "       ELBO 1   recons: 2   KL: 3   marginal log-likelihood (10) 4"
       "100" = -1.
Proof.
  repeat split; try reflexivity.
  simpl. tauto.
Qed.


(** ** The forward pass on rational inputs *)

Module RatExamples.

Import QArith.





End RatExamples.

(** * Further properties of the code *)

(** ** Dict lookups and the key scan *)

Lemma getitem_missing {V : Type} (d : list (string * V)) (k : string) :
  ~ In k (Py.keys d) -> Py.getitem d k = Raise (KeyError k).
Proof.
  induction d as [|[k' v] d IH]; intros Hno; simpl; [reflexivity|].
  destruct (String.eqb_spec k' k) as [->|Hne].
  - exfalso. apply Hno. now left.
  - apply IH. intros Hin. apply Hno. now right.
Qed.

Lemma getitem_present {V : Type} (d : list (string * V)) (k : string) :
  In k (Py.keys d) -> exists v, Py.getitem d k = Ok v /\ In (k, v) d.
Proof.
  induction d as [|[k' v] d IH]; intros Hin; simpl in *; [contradiction|].
  destruct (String.eqb_spec k' k) as [->|Hne].
  - exists v. split; [reflexivity | now left].
  - destruct Hin as [E|Hin]; [contradiction|].
    destruct (IH Hin) as (v' & Hget & Hv'). exists v'. split; [exact Hget | now right].
Qed.

Lemma getitem_dec {V : Type} (d : list (string * V)) (k : string) :
  (exists v, Py.getitem d k = Ok v /\ In (k, v) d /\ In k (Py.keys d))
  \/ (Py.getitem d k = Raise (KeyError k) /\ ~ In k (Py.keys d)).
Proof.
  destruct (in_dec string_dec k (Py.keys d)) as [Hin|Hno].
  - left. destruct (getitem_present d k Hin) as (v & Hget & Hv).
    exists v. repeat split; assumption.
  - right. split; [now apply getitem_missing | exact Hno].
Qed.

Lemma find_from_shift (i j : Z) (s sub : string) :
  0 <= i -> 0 <= j ->
  Py.find_from i s sub = -1 -> Py.find_from j s sub = -1.
Proof.
  revert i j; induction s as [|ch s IH]; intros i j Hi Hj Hf; simpl in *.
  - destruct (Py.startswith "" sub); [lia | reflexivity].
  - destruct (Py.startswith (String ch s) sub); [lia|].
    apply (IH (i + 1)); [lia | lia | exact Hf].
Qed.

Lemma last_cons_nonempty (a : string) (l : list string) :
  l <> [] -> Py.last (a :: l) = Py.last l.
Proof. intros Hl. destruct l; [congruence | reflexivity]. Qed.

Lemma split_nonempty (s : string) (sep : ascii) : Py.split s sep <> [].
Proof.
  destruct s as [|c s]; simpl; [discriminate|].
  destruct (Ascii.eqb c sep); [discriminate|].
  destruct (Py.split s sep); discriminate.
Qed.

(** Either the separator is absent and the string is one piece, or the
    string ends with the separator followed by its last piece, and the
    last piece is free of the separator. *)
Lemma split_last_cases (s : string) (sep : ascii) :
  (Py.find s (String sep "") = -1 /\ Py.split s sep = [s])
  \/ (exists front,
         s = front ++ String sep (Py.last (Py.split s sep))
         /\ Py.find (Py.last (Py.split s sep)) (String sep "") = -1).
Proof.
  induction s as [|c s IH].
  - left. split; reflexivity.
  - cbn [Py.split].
    destruct (Ascii.eqb_spec c sep) as [->|Hne].
    + right. rewrite last_cons_nonempty by apply split_nonempty.
      destruct IH as [[Hf Hs]|(front & Hs & Hf)].
      * exists "". rewrite Hs. split; [reflexivity | exact Hf].
      * exists (String sep front). split; [|exact Hf].
        cbn [append]. now rewrite <- Hs.
    + destruct IH as [[Hf Hs]|(front & Hs & Hf)].
      * left. rewrite Hs. split; [|reflexivity].
        unfold Py.find in *. cbn [Py.find_from Py.startswith].
        apply Ascii.eqb_neq in Hne. rewrite Ascii.eqb_sym, Hne.
        cbn [andb].
        apply (find_from_shift 0); [lia | lia | exact Hf].
      * right.
        destruct (split_append front (Py.last (Py.split s sep)) sep)
          as (pieces & Hne' & Hsplit).
        rewrite <- Hs in Hsplit.
        destruct (Py.split s sep) as [|h t] eqn:E.
        { now destruct (split_nonempty s sep). }
        assert (Ht : t <> []).
        { destruct pieces as [|p0 pieces]; [congruence|].
          injection Hsplit as _ Ht. rewrite Ht.
          destruct pieces; [apply split_nonempty | discriminate]. }
        rewrite last_cons_nonempty by exact Ht.
        rewrite last_cons_nonempty in Hs, Hf by exact Ht.
        exists (String c front). split; [|exact Hf].
        cbn [append]. now rewrite <- Hs.
Qed.

Section LoggingMore.

Context `{Torch}.

Lemma occurs_underscore (key : string) :
  occurs "elbo_IW" key -> occurs "_" key.
Proof.
  intros (a & b & ->). exists (a ++ "elbo"), ("IW" ++ b).
  now rewrite append_assoc.
Qed.

(** What the scan of the keys returns, read backwards. *)
Lemma scan_keys_sound (ks : list string) (key label : string) :
  scan_keys ks = Some (key, label) ->
  exists pre post front,
    ks = (pre ++ key :: post)%list
    /\ Forall (fun k' => ~ occurs "elbo_IW" k') pre
    /\ occurs "elbo_IW" key
    /\ key = front ++ "_" ++ label
    /\ ~ occurs "_" label.
Proof.
  induction ks as [|k ks IH]; simpl; [discriminate|].
  destruct (-1 <? Py.find k "elbo_IW") eqn:E.
  - intros [= <- <-].
    apply find_occurs_iff in E.
    destruct (split_last_cases k "_") as [[Hf _]|(front & Hs & Hf)].
    + exfalso. apply find_absent in Hf. apply Hf.
      now apply occurs_underscore.
    + exists [], ks, front. repeat split; try assumption.
      * constructor.
      * now apply find_absent.
  - intros Hscan.
    destruct (IH Hscan) as (pre & post & front & -> & Hpre & Hk & Hs & Hl).
    exists (k :: pre), post, front. repeat split; try assumption.
    constructor; [|exact Hpre].
    intros Hocc. apply find_occurs_iff in Hocc. congruence.
Qed.

Lemma scan_keys_in (ks : list string) (key label : string) :
  scan_keys ks = Some (key, label) -> In key ks.
Proof.
  intros Hscan.
  destruct (scan_keys_sound _ _ _ Hscan) as (pre & post & _ & -> & _).
  apply in_elt.
Qed.

End LoggingMore.

(** ** The log lines *)

Section LogLines.

Context `{Torch}.

(** X1.  [print_test_log] prints a line exactly when the summaries hold
    ['elbo/elbo'], ['elbo/recons'] and ['elbo/kl']: the lookup of the
    importance-weighted entry never fails, because its key was taken
    from the mapping. *)
Theorem print_test_log_succeeds_iff (s : Summaries) (step epoch : option Z) :
  (exists line, print_test_log s step epoch = Ok line)
  <-> In "elbo/elbo" (Py.keys s) /\ In "elbo/recons" (Py.keys s)
      /\ In "elbo/kl" (Py.keys s).
Proof.
  unfold print_test_log.
  destruct (getitem_dec s "elbo/elbo") as [(e & -> & _ & He)|[-> He]];
    cbn [rbind]; [|split; [intros [? ?]; discriminate | tauto]].
  destruct (getitem_dec s "elbo/recons") as [(r & -> & _ & Hr)|[-> Hr]];
    cbn [rbind]; [|split; [intros [? ?]; discriminate | tauto]].
  destruct (getitem_dec s "elbo/kl") as [(k & -> & _ & Hk)|[-> Hk]];
    cbn [rbind]; [|split; [intros [? ?]; discriminate | tauto]].
  split; [tauto|]. intros _.
  destruct (scan_keys (Py.keys s)) as [[key label]|] eqn:Hscan.
  - destruct (getitem_present s key (scan_keys_in _ _ _ Hscan))
      as (v & -> & _).
    cbn [rbind]. eauto.
  - eauto.
Qed.

(** X2.  The [KeyError] of [print_test_log] names the first of
    ['elbo/elbo'], ['elbo/recons'], ['elbo/kl'] that the summaries
    lack, whatever else they hold. *)
Theorem print_test_log_key_error (s : Summaries) (step epoch : option Z) :
  (~ In "elbo/elbo" (Py.keys s) ->
   print_test_log s step epoch = Raise (KeyError "elbo/elbo"))
  /\ (In "elbo/elbo" (Py.keys s) -> ~ In "elbo/recons" (Py.keys s) ->
      print_test_log s step epoch = Raise (KeyError "elbo/recons"))
  /\ (In "elbo/elbo" (Py.keys s) -> In "elbo/recons" (Py.keys s) ->
      ~ In "elbo/kl" (Py.keys s) ->
      print_test_log s step epoch = Raise (KeyError "elbo/kl")).
Proof.
  unfold print_test_log. repeat split.
  - intros He. now rewrite (getitem_missing s _ He).
  - intros He Hr.
    destruct (getitem_present s _ He) as (e & -> & _).
    now rewrite (getitem_missing s _ Hr).
  - intros He Hr Hk.
    destruct (getitem_present s _ He) as (e & -> & _).
    destruct (getitem_present s _ Hr) as (r & -> & _).
    now rewrite (getitem_missing s _ Hk).
Qed.

(** X3.  Every line [print_test_log] prints is the three scalars, alone
    or followed by one marginal log-likelihood segment; the segment
    reports an entry of the summaries whose key contains ['elbo_IW'],
    and its label is the tail of that key after its last underscore. *)
Theorem print_test_log_line_form (s : Summaries) (step epoch : option Z)
    (line : string) :
  print_test_log s step epoch = Ok line ->
  exists e r k,
    Py.getitem s "elbo/elbo" = Ok e
    /\ Py.getitem s "elbo/recons" = Ok r
    /\ Py.getitem s "elbo/kl" = Ok k
    /\ (line = test_log_scalars step epoch e r k
        \/ exists key v front label,
             In (key, v) s
             /\ occurs "elbo_IW" key
             /\ key = front ++ "_" ++ label
             /\ ~ occurs "_" label
             /\ line = test_log_scalars step epoch e r k
                       ++ "   marginal log-likelihood (" ++ label ++ ") "
                       ++ fmt5g v).
Proof.
  unfold print_test_log.
  destruct (Py.getitem s "elbo/elbo") as [e|]; [|discriminate].
  destruct (Py.getitem s "elbo/recons") as [r|]; [|discriminate].
  destruct (Py.getitem s "elbo/kl") as [k|]; [|discriminate].
  cbn [rbind]. intros Hline.
  exists e, r, k. repeat split.
  destruct (scan_keys (Py.keys s)) as [[key label]|] eqn:Hscan.
  - right.
    destruct (getitem_present s key (scan_keys_in _ _ _ Hscan))
      as (v & Hget & Hin).
    rewrite Hget in Hline. cbn [rbind] in Hline. injection Hline as <-.
    destruct (scan_keys_sound _ _ _ Hscan)
      as (pre & post & front & _ & _ & Hocc & Hkey & Hlabel).
    exists key, v, front, label. repeat split; assumption.
  - left. now injection Hline.
Qed.

(** X4.  [print_train_log] prints a line exactly when the summaries
    hold ['loss/loss'], ['elbo/elbo'], ['elbo/recons'] and
    ['elbo/kl']. *)
Theorem print_train_log_succeeds_iff (step epoch : Z) (s : Summaries) :
  (exists line, print_train_log step epoch s = Ok line)
  <-> In "loss/loss" (Py.keys s) /\ In "elbo/elbo" (Py.keys s)
      /\ In "elbo/recons" (Py.keys s) /\ In "elbo/kl" (Py.keys s).
Proof.
  unfold print_train_log.
  destruct (getitem_dec s "loss/loss") as [(l & -> & _ & Hl)|[-> Hl]];
    cbn [rbind]; [|split; [intros [? ?]; discriminate | tauto]].
  destruct (getitem_dec s "elbo/elbo") as [(e & -> & _ & He)|[-> He]];
    cbn [rbind]; [|split; [intros [? ?]; discriminate | tauto]].
  destruct (getitem_dec s "elbo/recons") as [(r & -> & _ & Hr)|[-> Hr]];
    cbn [rbind]; [|split; [intros [? ?]; discriminate | tauto]].
  destruct (getitem_dec s "elbo/kl") as [(k & -> & _ & Hk)|[-> Hk]];
    cbn [rbind]; [|split; [intros [? ?]; discriminate | tauto]].
  split; [tauto | eauto].
Qed.

(** X5.  The metrics of any forward-pass result can be printed by both
    log hooks: the evaluation line has no marginal log-likelihood
    segment, and the training line reports the loss, ELBO,
    reconstruction term and KL of the result. *)
Theorem metrics_dict_log_lines (results : ForwardOutput) (step epoch : Z)
    (tstep tepoch : option Z) :
  print_test_log (get_metrics_dict results) tstep tepoch
  = Ok (test_log_scalars tstep tepoch
          (elbo results) (recons results) (kl results))
  /\ print_train_log step epoch (get_metrics_dict results)
     = Ok ("       [step " ++ Py.str step ++ "]   loss: "
           ++ fmt5g (loss results) ++ "   ELBO: " ++ fmt5g (elbo results)
           ++ "   recons: " ++ fmt3g (recons results)
           ++ "   KL: " ++ fmt3g (kl results)).
Proof. split; reflexivity. Qed.

End LogLines.

Lemma print_test_log_key_error_witness :
  @print_test_log IntTorch.torch
    [("elbo/elbo", 1); ("elbo_IW_100", 5)] None None
  = Raise (KeyError "elbo/recons").
Proof.
  apply (proj1 (proj2 (print_test_log_key_error
                         (H := IntTorch.torch)
                         [("elbo/elbo", 1); ("elbo_IW_100", 5)] None None))).
  - simpl. tauto.
  - simpl. intros [E|[E|[]]]; discriminate.
Defined.

Lemma print_test_log_line_form_witness :
  exists e r k : Z,
    Py.getitem IntTorch.summaries_two_iw "elbo/elbo" = Ok e
    /\ Py.getitem IntTorch.summaries_two_iw "elbo/recons" = Ok r
    /\ Py.getitem IntTorch.summaries_two_iw "elbo/kl" = Ok k.
Proof.
  destruct (print_test_log_line_form IntTorch.summaries_two_iw None None
              "       ELBO 1   recons: 2   KL: 3   marginal log-likelihood (10) 4"
              eq_refl)
    as (e & r & k & He & Hr & Hk & _).
  exists e, r, k. repeat split; assumption.
Defined.

(** ** The forward pass and the grid, whatever the shapes *)

Section Outcomes.

Context `{Torch}.

(** A probability outside [0, 1] or a value other than 0 and 1 stops
    the forward pass in torch's validation. *)
Lemma forward_pass_invalid (m : Model) (x : Batch) (w : World) :
  all_entries is_prob (mo_mean (fst (call m (rng w) x))) = false
  \/ all_entries is_binary x = false ->
  forward_pass m x w =
    (Raise ValueError,
     {| rng := snd (call m (rng w) x); trace := trace w ++ [Forward x] |}).
Proof.
  unfold forward_pass, bind, call_model, lift, bernoulli.
  destruct (call m (rng w) x) as [out r]; cbn [fst snd].
  intros Hbad.
  destruct (all_entries is_prob (mo_mean out)); [|reflexivity].
  destruct Hbad as [Hbad|Hbad]; [discriminate|].
  unfold log_prob. rewrite Hbad.
  match goal with
  | |- context [broadcastable ?g (mo_mean out) x] =>
      destruct (broadcastable g (mo_mean out) x)
  end; reflexivity.
Qed.

(** X6.  Whether it returns or raises, [forward_pass] has called the
    model once on the batch it was given and has written no image file.
    A decoder mean with an entry outside [0, 1], or a batch with a
    pixel other than 0 and 1, makes it raise [ValueError]. *)
Theorem forward_pass_world (m : Model) (x : Batch) (w : World) :
  snd (forward_pass m x w)
  = {| rng := snd (call m (rng w) x); trace := trace w ++ [Forward x] |}
  /\ artifacts (snd (forward_pass m x w)) = artifacts w
  /\ (all_entries is_prob (mo_mean (fst (call m (rng w) x))) = false ->
      fst (forward_pass m x w) = Raise ValueError)
  /\ (all_entries is_binary x = false ->
      fst (forward_pass m x w) = Raise ValueError).
Proof.
  split; [|split; [|split]].
  - destruct (forward_pass_cases m x w) as [(e & E)|(res & E & _)];
      now rewrite E.
  - destruct (forward_pass_cases m x w) as [(e & E)|(res & E & _)];
      rewrite E; cbn [snd]; rewrite artifacts_app; cbn [flat_map];
      apply app_nil_r.
  - intros Hbad. rewrite forward_pass_invalid; [reflexivity | now left].
  - intros Hbad. rewrite forward_pass_invalid; [reflexivity | now right].
Qed.

(** X8.  [save_input_and_recons] writes its file exactly when it
    returns: a call that returns has written the one file [fname], and
    a call that raises, at whatever point, has written none. *)
Theorem save_input_and_recons_file_iff_ok (self : Experiment) (x : Batch)
    (fname : string) (n : Z) (w : World) :
  (fst (save_input_and_recons self x fname n w) = Ok tt
   /\ artifacts (snd (save_input_and_recons self x fname n w))
      = (artifacts w ++ [fname])%list)
  \/ (exists e,
         fst (save_input_and_recons self x fname n w) = Raise e
         /\ artifacts (snd (save_input_and_recons self x fname n w))
            = artifacts w).
Proof.
  destruct (save_cases self x fname n w)
    as (r & w' & -> & [(-> & Hf & _)|(e & -> & Hf)]); cbn [fst snd];
    [left; now split | right; eauto].
Qed.

(** X9.  With an odd grid side [n] the call never returns, whatever the
    batch and the model: [n ** 2 // 2] pairs make [n ** 2 - 1] images,
    which [reshape] cannot arrange as [n ** 2]; no file is written. *)
Theorem save_input_and_recons_odd_side (self : Experiment) (x : Batch)
    (fname : string) (n : Z) (w : World) :
  Z.odd n = true ->
  exists e,
    fst (save_input_and_recons self x fname n w) = Raise e
    /\ artifacts (snd (save_input_and_recons self x fname n w))
       = artifacts w.
Proof.
  intros Hodd.
  destruct (save_cases self x fname n w)
    as (r & w' & -> & [(_ & _ & Heven & _)|(e & -> & Hf)]); cbn [fst snd];
    [|eauto].
  rewrite Zeven.Zeven_odd_bool, Hodd in Heven. discriminate.
Qed.

End Outcomes.

Lemma forward_pass_world_witness :
  fst (forward_pass RatTorch.flat [RatTorch.grey] RatTorch.world0)
  = Raise ValueError.
Proof.
  apply (proj2 (proj2 (proj2 (forward_pass_world RatTorch.flat
                                [RatTorch.grey] RatTorch.world0)))).
  reflexivity.
Defined.

Lemma save_input_and_recons_odd_side_witness :
  exists e,
    fst (save_input_and_recons (IntTorch.experiment false 4)
           (IntTorch.pixels 4 0) "reconstruction_7.png" 3 IntTorch.world0)
    = Raise e.
Proof.
  destruct (save_input_and_recons_odd_side (IntTorch.experiment false 4)
              (IntTorch.pixels 4 0) "reconstruction_7.png" 3
              IntTorch.world0 eq_refl) as (e & He & _).
  now exists e.
Defined.

(** ** Additional testing, whatever the test loader holds *)

Section TestingMore.

Context `{Torch}.

Lemma path_join_in_folder (folder name : string) :
  Py.startswith name "/" = false ->
  Py.startswith (Py.path_join folder name) folder = true.
Proof.
  intros Hrel. unfold Py.path_join. rewrite Hrel.
  destruct (String.eqb folder "" || Py.ends_with_slash folder);
    apply startswith_append.
Qed.

(** X10.  Without dry-run and with a test loader that yields no batch,
    [additional_testing] raises [StopIteration]; by then it has drawn
    the 64 prior samples and written [sample_<step>.png], and it has run
    no forward pass. *)
Theorem additional_testing_empty_loader (self : Experiment)
    (img_folder : string) (w : World) :
  let step := Py.str (global_step (model self)) in
  let sample_png := Py.path_join img_folder ("sample_" ++ step ++ ".png") in
  dry_run (args self) = false ->
  dataloaders_test self = [] ->
  exists w',
    additional_testing self img_folder w = (Raise StopIteration, w')
    /\ artifacts w' = (artifacts w ++ [sample_png])%list
    /\ exists imgs pad,
         trace w' = (trace w ++ [SamplePrior 64;
                                 SaveImage sample_png imgs 8 pad])%list.
Proof.
  intros step sample_png Hdry Hloader.
  rewrite (additional_testing_no_batch self img_folder w Hdry Hloader).
  eexists. split; [reflexivity|]. split.
  - rewrite artifacts_app. reflexivity.
  - eexists _, _. reflexivity.
Qed.

(** X11.  Without dry-run, [additional_testing] always writes
    [sample_<step>.png] first; it writes [reconstruction_<step>.png]
    after it exactly when it returns, and never any other file.  Both
    paths begin with the folder it was given. *)
Theorem additional_testing_files (self : Experiment) (img_folder : string)
    (w : World) :
  let step := Py.str (global_step (model self)) in
  let sample_png := Py.path_join img_folder ("sample_" ++ step ++ ".png") in
  let recons_png :=
    Py.path_join img_folder ("reconstruction_" ++ step ++ ".png") in
  dry_run (args self) = false ->
  (exists r w',
      additional_testing self img_folder w = (r, w')
      /\ ((r = Ok tt
           /\ artifacts w' = (artifacts w ++ [sample_png; recons_png])%list)
          \/ (exists e,
                 r = Raise e
                 /\ artifacts w' = (artifacts w ++ [sample_png])%list)))
  /\ Py.startswith sample_png img_folder = true
  /\ Py.startswith recons_png img_folder = true.
Proof.
  intros step sample_png recons_png Hdry.
  split; [|split; apply path_join_in_folder; reflexivity].
  now apply additional_testing_cases.
Qed.

(** X12.  [additional_testing] reads the first test batch only, and of
    it only the images: the labels and the later batches of the loader
    make no difference to what it returns and leaves behind. *)
Theorem additional_testing_first_batch_only (a : Namespace) (m : Model)
    (x : Batch) (y y' : list Z) (rest rest' : list (Batch * list Z))
    (img_folder : string) (w : World) :
  additional_testing
    {| args := a; model := m; dataloaders_test := (x, y) :: rest |}
    img_folder w
  = additional_testing
      {| args := a; model := m; dataloaders_test := (x, y') :: rest' |}
      img_folder w.
Proof.
  destruct (dry_run a) eqn:Hdry.
  - unfold additional_testing. cbn [args]. now rewrite Hdry.
  - rewrite (additional_testing_steps
               {| args := a; model := m; dataloaders_test := (x, y) :: rest |}
               img_folder w x y rest Hdry eq_refl).
    rewrite (additional_testing_steps
               {| args := a; model := m;
                  dataloaders_test := (x, y') :: rest' |}
               img_folder w x y' rest' Hdry eq_refl).
    reflexivity.
Qed.

End TestingMore.

Lemma additional_testing_empty_loader_witness :
  exists w',
    additional_testing
      {| args := IntTorch.config false; model := IntTorch.vae;
         dataloaders_test := [] |} "out" IntTorch.world0
    = (Raise StopIteration, w')
    /\ artifacts w' = ["out/sample_7.png"].
Proof.
  destruct (additional_testing_empty_loader
              {| args := IntTorch.config false; model := IntTorch.vae;
                 dataloaders_test := [] |} "out" IntTorch.world0
              eq_refl eq_refl) as (w' & Hrun & Hfiles & _).
  exists w'. split; assumption.
Defined.

Lemma additional_testing_files_witness :
  Py.startswith
    (Py.path_join "out" ("reconstruction_" ++ Py.str 7 ++ ".png")) "out"
  = true.
Proof.
  apply (proj2 (proj2 (additional_testing_files
                         (IntTorch.experiment false 31) "out"
                         IntTorch.world0 eq_refl))).
Defined.

(** ** The run description identifies seed and tag *)

Lemma uint_no_comma (d : Decimal.uint) (i : Z) :
  0 <= i -> Py.find_from i (NilEmpty.string_of_uint d) "," = -1.
Proof.
  revert i; induction d; intros i Hi; simpl;
    try reflexivity; apply IHd; lia.
Qed.

Lemma str_no_comma (z : Z) : Py.find (Py.str z) "," = -1.
Proof.
  unfold Py.find, Py.str.
  destruct (Z.to_int z) as [d|d]; simpl.
  - destruct d; simpl; try reflexivity; apply uint_no_comma; lia.
  - destruct d; simpl; try reflexivity; apply uint_no_comma; lia.
Qed.

(** [str] of an integer can be read back. *)
Lemma str_read_back (z : Z) :
  NilZero.int_of_string (Py.str z) = Some (Z.to_int z).
Proof.
  unfold Py.str. apply NilZero.isi.
  - destruct z; simpl; try discriminate.
    intros [= E]. now apply (DecimalPos.Unsigned.to_uint_nonnil p).
  - destruct z; simpl; try discriminate.
    intros [= E]. now apply (DecimalPos.Unsigned.to_uint_nonnil p).
Qed.

Lemma str_inj (a b : Z) : Py.str a = Py.str b -> a = b.
Proof.
  intros E. apply DecimalZ.to_int_inj.
  pose proof (str_read_back a) as Ha. rewrite E, str_read_back in Ha.
  congruence.
Qed.

(** Two texts without a comma, each followed by nothing or by a comma
    and more, are equal part by part when the wholes are equal. *)
Lemma comma_cut (a b t1 t2 : string) (i j : Z) :
  0 <= i -> 0 <= j ->
  Py.find_from i a "," = -1 -> Py.find_from j b "," = -1 ->
  (t1 = "" \/ exists t, t1 = String "," t) ->
  (t2 = "" \/ exists t, t2 = String "," t) ->
  a ++ t1 = b ++ t2 -> a = b /\ t1 = t2.
Proof.
  revert b i j; induction a as [|c a IH]; intros [|d b] i j Hi Hj Ha Hb H1 H2 E;
    cbn [append] in E.
  - now split.
  - exfalso. subst t1. cbn [Py.find_from Py.startswith] in Hb. rewrite andb_true_r in Hb.
    destruct H1 as [E1|[t E1]]; [discriminate|].
    injection E1 as -> _. rewrite Ascii.eqb_refl in Hb. lia.
  - exfalso. subst t2. cbn [Py.find_from Py.startswith] in Ha. rewrite andb_true_r in Ha.
    destruct H2 as [E2|[t E2]]; [discriminate|].
    injection E2 as -> _. rewrite Ascii.eqb_refl in Ha. lia.
  - injection E as <- E.
    cbn [Py.find_from Py.startswith] in Ha, Hb.
    rewrite andb_true_r in Ha, Hb.
    destruct (Ascii.eqb "," c); [lia|].
    destruct (IH b (i + 1) (j + 1)) as [-> ->]; try assumption; try lia.
    now split.
Qed.

Lemma run_description_parts (args : Namespace) :
  _make_run_description args
  = "seed" ++ Py.str (seed args)
    ++ match additional_descr args with
       | EmptyString => ""
       | String c tag => String "," (String c tag)
       end.
Proof.
  unfold _make_run_description.
  destruct (additional_descr args) as [|c tag].
  - cbn [String.length Z.of_nat Z.ltb Z.compare].
    cbn [append]. now rewrite append_nil_r.
  - replace (0 <? Z.of_nat (String.length (String c tag))) with true
      by (symmetry; apply Z.ltb_lt; cbn [String.length]; lia).
    reflexivity.
Qed.

(** X13.  Two configurations with the same run description have the
    same seed and the same free-text tag: the description determines
    both. *)
Theorem make_run_description_inj (a1 a2 : Namespace) :
  _make_run_description a1 = _make_run_description a2 ->
  seed a1 = seed a2 /\ additional_descr a1 = additional_descr a2.
Proof.
  rewrite !run_description_parts. cbn [append].
  intros [= E].
  apply (comma_cut _ _ _ _ 0 0) in E;
    try lia; try apply str_no_comma.
  - destruct E as [Es Et]. split; [now apply str_inj|].
    destruct (additional_descr a1), (additional_descr a2);
      congruence.
  - destruct (additional_descr a1); [now left | right; eauto].
  - destruct (additional_descr a2); [now left | right; eauto].
Qed.

Lemma make_run_description_inj_witness :
  seed (IntTorch.config false) = seed (IntTorch.config true)
  /\ additional_descr (IntTorch.config false)
     = additional_descr (IntTorch.config true).
Proof.
  apply (make_run_description_inj (IntTorch.config false)
           (IntTorch.config true)).
  reflexivity.
Defined.

(** ** Every outcome of the interval check *)

(** X14.  [_parse_args] ends in one of three ways, each decided by the
    two intervals alone: [ZeroDivisionError] exactly when the
    test-logging interval is zero, [AssertionError] exactly when it is
    not zero and does not divide the evaluation interval, and otherwise
    the arguments it was given, unchanged. *)
Theorem parse_args_outcomes (args : Namespace) :
  (_parse_args args = Raise ZeroDivisionError
   <-> test_log_interval args = 0)
  /\ (_parse_args args = Raise AssertionError
      <-> test_log_interval args <> 0
          /\ ~ (test_log_interval args | loglik_interval args))
  /\ (_parse_args args = Ok args
      <-> test_log_interval args <> 0
          /\ (test_log_interval args | loglik_interval args))
  /\ (forall r, _parse_args args = Ok r -> r = args).
Proof.
  unfold _parse_args, Py.mod_.
  destruct (Z.eqb_spec (test_log_interval args) 0) as [E0|N0]; cbn [rbind].
  - intuition (try discriminate; try congruence).
  - pose proof (Z.mod_divide (loglik_interval args) _ N0) as Hmod.
    destruct (Z.eqb_spec (loglik_interval args mod test_log_interval args) 0)
      as [Em|Nm];
      intuition (try discriminate; try congruence).
Qed.

(** ** The grid for any positive even side *)

Section EvenSide.

Context `{Torch}.



End EvenSide.

